(** * The Windows CPU check: sample, diff against the last sample, emit rates

    A shallow embedding of [pkg/collector/corechecks/system/cpu_windows.go]:
    the sampler [Times], the check state [CPUCheck], and its two phases
    [Configure] and [Run].  The calls the check makes into the operating
    system and into other packages (GetSystemTimes, the gohai CPU info, the
    PDH counter set, the aggregator's sender) are inputs of the model: each
    phase takes a record holding what those calls return, with Go's
    [(value, error)] pairs kept as pairs.  The sender is the list of calls
    made on it, in order.

    The same source file also holds the legacy configuration readers,
    [GetLegacyAgentConfig] and [getLegacyIntegrationConfigFromFile]; they are
    embedded in the same way, over the ini and yaml packages. *)

From Stdlib Require Import ZArith QArith Qfield Lia Lqa Floats.
From stdpp Require Import base option list strings gmap.

Local Open Scope Z_scope.

(** ** Go's float64

    The check computes in float64.  The model is written once over the
    operations it uses and run in two arithmetics: IEEE 754 binary64
    (Rocq's primitive floats), which is what the Go code executes, and exact
    rationals, in which the algebraic identities of the rate computation are
    stated. *)

Class Float64 (F : Type) : Type := {
  f64_0 : F;                      (* float64(0) and the literal 0 *)
  f64_100 : F;                    (* the literal 100 *)
  f64_add : F -> F -> F;
  f64_sub : F -> F -> F;
  f64_mul : F -> F -> F;
  f64_div : F -> F -> F;
  f64_ne : F -> F -> bool;        (* x != y *)
  f64_of_uint64 : Z -> F;         (* float64(x), x a uint64 *)
  f64_of_int64 : Z -> F;          (* float64(x), x an int64 *)
  f64_0_ne_0 : f64_ne f64_0 f64_0 = false     (* 0 != 0 is false *)
}.

Declare Scope f64_scope.
Delimit Scope f64_scope with f64.
Infix "+" := f64_add : f64_scope.
Infix "-" := f64_sub : f64_scope.
Infix "*" := f64_mul : f64_scope.
Infix "/" := f64_div : f64_scope.

(** float64 of an unsigned 64-bit integer, rounded to nearest even.  Both
    halves convert exactly and the high half times 2^32 is exact, so the one
    addition performs the one rounding. *)
Definition binary64_of_uint64 (x : Z) : float :=
  PrimFloat.add
    (PrimFloat.mul (PrimFloat.of_uint63 (Uint63.of_Z (x / 2 ^ 32))) 4294967296%float)
    (PrimFloat.of_uint63 (Uint63.of_Z (x mod 2 ^ 32))).

Definition binary64_of_int64 (x : Z) : float :=
  if x <? 0 then PrimFloat.opp (binary64_of_uint64 (- x)) else binary64_of_uint64 x.

#[export] Instance binary64 : Float64 float := {|
  f64_0 := 0%float;
  f64_100 := 100%float;
  f64_add := PrimFloat.add;
  f64_sub := PrimFloat.sub;
  f64_mul := PrimFloat.mul;
  f64_div := PrimFloat.div;
  f64_ne := fun x y => negb (PrimFloat.eqb x y);
  f64_of_uint64 := binary64_of_uint64;
  f64_of_int64 := binary64_of_int64;
  f64_0_ne_0 := eq_refl
|}.

(** The same operations without rounding.  Rocq's [Qdiv] gives 0 for a zero
    divisor, where binary64 gives an infinity or NaN: statements made in this
    arithmetic keep their divisors away from zero. *)
#[export] Instance exact : Float64 Q := {|
  f64_0 := 0%Q;
  f64_100 := 100%Q;
  f64_add := Qplus;
  f64_sub := Qminus;
  f64_mul := Qmult;
  f64_div := Qdiv;
  f64_ne := fun x y => negb (Qeq_bool x y);
  f64_of_uint64 := inject_Z;
  f64_of_int64 := inject_Z;
  f64_0_ne_0 := eq_refl
|}.

(** ** Errors, the sender and the log *)

(** A Go [error], by its message. *)
Definition error : Type := string.

(** The calls [Run] makes on the sender. *)
Inductive SenderCall (F : Type) : Type :=
  | Gauge (metric : string) (value : F) (hostname : string) (tags : list string)
  | Commit.
Arguments Gauge {F} metric value hostname tags.
Arguments Commit {F}.

(** What the [log] package is asked to write. *)
Inductive LogLine : Type :=
  | Errorf (msg : string)
  | Warnf (msg : string).

(** How a call ends: it returns its [error] (nil is [None]) or panics. *)
Inductive Completion : Type :=
  | Return (err : option error)
  | Panic (msg : string).

Definition cpuCheckName : string := "cpu".

(** uint64 arithmetic wraps around. *)
Definition uint64 (x : Z) : Z := x mod 2 ^ 64.

(** FILETIME is a copy of the Windows FILETIME structure. *)
Record FILETIME : Type := {
  DwLowDateTime : Z;      (* uint32 *)
  DwHighDateTime : Z      (* uint32 *)
}.

Definition is_uint32 (x : Z) : Prop := 0 <= x < 2 ^ 32.

Definition FILETIME_ok (ft : FILETIME) : Prop :=
  is_uint32 (DwLowDateTime ft) /\ is_uint32 (DwHighDateTime ft).

(** [uint64(uint64(ft.DwHighDateTime)<<32) + uint64(ft.DwLowDateTime)] *)
Definition FILETIME_ticks (ft : FILETIME) : Z :=
  uint64 (uint64 (Z.shiftl (uint64 (DwHighDateTime ft)) 32) + uint64 (DwLowDateTime ft)).

(** One call of [procGetSystemTimes.Call]: its first result [r], the three
    structures it fills in, and what [windows.GetLastError()] says after it. *)
Record GetSystemTimes : Type := {
  r : Z;
  lpIdleTime : FILETIME;
  lpKernelTime : FILETIME;
  lpUserTime : FILETIME;
  GetLastError : option error
}.

(** [*pdhutil.PdhCounterSet]: an open counter handle. *)
Inductive PdhCounterSet : Type :=
  | PdhCounter (className counterName instanceName : string).

Section Model.
Context {F : Type} `{Float64 F}.

Local Open Scope f64_scope.

(** TimesStat contains the amounts of time the CPU has spent performing
    different kinds of work. *)
Record TimesStat : Type := {
  CPU : string;
  User : F;
  System : F;
  Idle : F
}.

Record CPUCheck : Type := {
  nbCPU : F;
  lastNbCycle : F;
  lastTimes : TimesStat;
  counter : option PdhCounterSet     (* a pointer: nil is [None] *)
}.

(** Total returns the total number of seconds in a CPUTimesStat. *)
Definition Total (c : TimesStat) : F :=
  let total := User c + System c + Idle c in
  total.

(** Times returns times stat per cpu and combined for all CPUs. *)
Definition Times (sys : GetSystemTimes) : list TimesStat * option error :=
  let ret : list TimesStat := [] in
  if (r sys =? 0)%Z then (ret, GetLastError sys)
  else
    let idle := FILETIME_ticks (lpIdleTime sys) in
    let user := FILETIME_ticks (lpUserTime sys) in
    let kernel := FILETIME_ticks (lpKernelTime sys) in
    let system := uint64 (kernel - idle)%Z in
    (ret ++ [ {| CPU := "cpu-total";
                 Idle := f64_of_uint64 idle;
                 User := f64_of_uint64 user;
                 System := f64_of_uint64 system |} ],
     None).

(** What one [Run] gets from outside the check. *)
Record RunHost : Type := {
  GetSender : option error;                             (* aggregator.GetSender(c.ID()): its error *)
  times : list TimesStat * option error;                (* times() *)
  GetSingleValue : option PdhCounterSet -> Z * option error   (* c.counter.GetSingleValue(), an int64 *)
}.

(** What a call of a method of the check leaves behind. *)
Record Outcome : Type := {
  ret : Completion;
  self : CPUCheck;                    (* the receiver after the call *)
  sender : list (SenderCall F);       (* calls on the sender, oldest first *)
  logged : list LogLine
}.

(** The six category gauges of one cycle: the body of [Run]'s
    [if c.lastNbCycle != 0] block. *)
Definition rates (c : CPUCheck) (t : TimesStat) (nbCycle : F) : list (SenderCall F) :=
  (* gopsutil return the sum of every CPU *)
  let toPercent := f64_100 / (nbCycle - lastNbCycle c) in
  let user := (User t - User (lastTimes c)) / nbCPU c in
  let system := (System t - System (lastTimes c)) / nbCPU c in
  let iowait := f64_0 in
  let idle := (Idle t - Idle (lastTimes c)) / nbCPU c in
  let stolen := f64_0 in
  let guest := f64_0 in
  [ Gauge "system.cpu.user" (user * toPercent) "" [];
    Gauge "system.cpu.system" (system * toPercent) "" [];
    Gauge "system.cpu.iowait" (iowait * toPercent) "" [];
    Gauge "system.cpu.idle" (idle * toPercent) "" [];
    Gauge "system.cpu.stolen" (stolen * toPercent) "" [];
    Gauge "system.cpu.guest" (guest * toPercent) "" [] ].

(** Run executes the check. *)
Definition Run (h : RunHost) (c : CPUCheck) : Outcome :=
  match GetSender h with
  | Some err => {| ret := Return (Some err); self := c; sender := []; logged := [] |}
  | None =>
    let '(cpuTimes, err) := times h in
    match err with
    | Some err =>
      {| ret := Return (Some err); self := c; sender := [];
         logged := [Errorf ("system.CPUCheck: could not retrieve cpu stats: " +:+ err)] |}
    | None =>
      if (length cpuTimes <? 1)%nat then
        let errEmpty : error := "no cpu stats retrieve (empty results)" in
        {| ret := Return (Some errEmpty); self := c; sender := [];
           logged := [Errorf ("system.CPUCheck: " +:+ errEmpty)] |}
      else
        match cpuTimes !! 0%nat with
        | None =>
          {| ret := Panic "index out of range"; self := c; sender := []; logged := [] |}
        | Some t =>
          let nbCycle := Total t / nbCPU c in
          let sent1 := if f64_ne (lastNbCycle c) f64_0 then rates c t nbCycle else [] in
          let '(val, err) := GetSingleValue h (counter c) in
          let '(sent2, warned) :=
            match err with
            | Some err => ([], [Warnf ("Error getting handle value " +:+ err)])
            | None => ([Gauge "system.cpu.interrupt" (f64_of_int64 val) "" []], [])
            end in
          {| ret := Return None;
             self := {| nbCPU := nbCPU c;
                        lastNbCycle := nbCycle;
                        lastTimes := t;
                        counter := counter c |};
             sender := sent1 ++ sent2 ++ [Commit];
             logged := warned |}
        end
    end
  end.

(** What one [Configure] gets from outside the check. *)
Record ConfigureHost : Type := {
  GetCpuInfo : gmap string string * option error;             (* cpu.GetCpuInfo() *)
  ParseFloat : string -> F * option error;                    (* strconv.ParseFloat(s, 64) *)
  GetCounterSet : option PdhCounterSet * option error         (* pdhutil.GetCounterSet(...) *)
}.

(** Configure the CPU check doesn't need configuration. *)
Definition Configure (h : ConfigureHost) (c : CPUCheck) : Outcome :=
  let '(info, err) := GetCpuInfo h in
  match err with
  | Some _ =>
    {| ret := Return (Some "system.CPUCheck: could not query CPU info");
       self := c; sender := []; logged := [] |}
  | None =>
    let '(cpucount, _) := ParseFloat h (default "" (info !! "cpu_logical_processors")) in
    let c := {| nbCPU := cpucount; lastNbCycle := lastNbCycle c;
                lastTimes := lastTimes c; counter := counter c |} in
    let '(set, err) := GetCounterSet h in
    let c := {| nbCPU := nbCPU c; lastNbCycle := lastNbCycle c;
                lastTimes := lastTimes c; counter := set |} in
    match err with
    | Some err =>
      {| ret := Return (Some ("system.CPUCheck could not establish interrupt time counter " +:+ err));
         self := c; sender := []; logged := [] |}
    | None => {| ret := Return None; self := c; sender := []; logged := [] |}
    end
  end.

(** [cpuFactory]: a fresh check, every field at its zero value. *)
Definition cpuFactory : CPUCheck :=
  {| nbCPU := f64_0;
     lastNbCycle := f64_0;
     lastTimes := {| CPU := ""; User := f64_0; System := f64_0; Idle := f64_0 |};
     counter := None |}.

End Model.

Arguments TimesStat F : clear implicits.
Arguments CPUCheck F : clear implicits.
Arguments RunHost F : clear implicits.
Arguments ConfigureHost F : clear implicits.
Arguments Outcome F : clear implicits.

(** ** Reading the sender

    The vocabulary of the properties below: which metrics a cycle sent, and
    with which values. *)

Definition category_metrics : list string :=
  [ "system.cpu.user"; "system.cpu.system"; "system.cpu.iowait";
    "system.cpu.idle"; "system.cpu.stolen"; "system.cpu.guest" ].

Section Observations.
Context {F : Type} `{Float64 F}.

(** The metric names gauged, oldest first. *)
Definition metrics (calls : list (SenderCall F)) : list string :=
  omap (fun call => match call with
                    | Gauge m _ _ _ => Some m
                    | Commit => None
                    end) calls.

(** The category gauges sent, with their values, oldest first. *)
Definition category_gauges (calls : list (SenderCall F)) : list (string * F) :=
  omap (fun call => match call with
                    | Gauge m v _ _ =>
                      if bool_decide (m ∈ category_metrics) then Some (m, v) else None
                    | Commit => None
                    end) calls.


(** The part of a cycle after the category gauges: the interrupt gauge
    when the counter could be read, then the commit. *)
Definition closing (res : Z * option error) : list (SenderCall F) :=
  match res.2 with
  | Some _ => [Commit]
  | None => [Gauge "system.cpu.interrupt" (f64_of_int64 res.1) "" []; Commit]
  end.


(** The 64-bit value a FILETIME holds. *)
Definition FILETIME_value (ft : FILETIME) : Z :=
  DwHighDateTime ft * 2 ^ 32 + DwLowDateTime ft.

Definition FILETIME_of (ticks : Z) : FILETIME :=
  {| DwLowDateTime := ticks mod 2 ^ 32; DwHighDateTime := ticks / 2 ^ 32 |}.

(** A successful GetSystemTimes call reporting these tick counts. *)
Definition system_times (idle kernel user : Z) : GetSystemTimes :=
  {| r := 1;
     lpIdleTime := FILETIME_of idle;
     lpKernelTime := FILETIME_of kernel;
     lpUserTime := FILETIME_of user;
     GetLastError := None |}.

(** The counter set [Configure] asks for. *)
Definition interrupt_time : PdhCounterSet :=
  PdhCounter "Processor" "% Interrupt Time" "_Total".

(** strconv.ParseFloat on the two strings the scenarios pass to it: "4",
    and the empty string, which is malformed and so yields 0 and a syntax
    error.  Scenarios pass no other string. *)
Definition ParseFloat_scenario (s : string) : F * option error :=
  if bool_decide (s = "4") then (f64_of_uint64 4, None)
  else (f64_0, Some "invalid syntax").

(** A host whose CPU info is [info] and on which the interrupt counter can
    be opened. *)
Definition host_configure (info : gmap string string) : ConfigureHost F :=
  {| GetCpuInfo := (info, None);
     ParseFloat := ParseFloat_scenario;
     GetCounterSet := (Some interrupt_time, None) |}.

(** A host on which the sender is available, times() is [Times] on the
    GetSystemTimes call [sys], and reading the counter gives [interrupt]. *)
Definition host_run (sys : GetSystemTimes) (interrupt : Z * option error) : RunHost F :=
  {| GetSender := None;
     times := Times sys;
     GetSingleValue := fun _ => interrupt |}.

(** The check after [Configure] and after a first cycle that sampled
    [sys]. *)
Definition configured (info : gmap string string) : CPUCheck F :=
  self (Configure (host_configure info) cpuFactory).

Definition seeded (info : gmap string string) (sys : GetSystemTimes) : CPUCheck F :=
  self (Run (host_run sys (0, None)) (configured info)).

End Observations.

(** The scenario of the specification: four logical processors, a first
    sample of user 100, system 50, idle 850, then one of user 140, system
    70, idle 990.  The kernel counter includes idle time. *)
Definition four_cpus : gmap string string := {[ "cpu_logical_processors" := "4" ]}.
Definition sample_prev : GetSystemTimes := system_times 850 900 100.
Definition sample_curr : GetSystemTimes := system_times 990 1060 140.


(** A GetSystemTimes call that fails. *)
Definition sample_failed : GetSystemTimes :=
  {| r := 0;
     lpIdleTime := FILETIME_of 0;
     lpKernelTime := FILETIME_of 0;
     lpUserTime := FILETIME_of 0;
     GetLastError := Some "Access is denied." |}.

(** A sample in which the kernel counter is below the idle counter. *)
Definition sample_wrapped : GetSystemTimes := system_times 990 980 140.

(** CPU info that does not report the number of logical processors. *)
Definition no_cpu_count : gmap string string := {[ "cpu_cores" := "2" ]}.

Section Failures.
Context {F : Type} `{Float64 F}.

(** A host on which the interrupt counter cannot be opened. *)
Definition host_configure_no_counter (info : gmap string string) : ConfigureHost F :=
  {| GetCpuInfo := (info, None);
     ParseFloat := ParseFloat_scenario;
     GetCounterSet := (None, Some "PDH_CSTATUS_NO_OBJECT") |}.

End Failures.

(** ** Several cycles *)

Section Cycles.
Context {F : Type} `{Float64 F}.

(** The check after the scheduler has run it once per host record, oldest
    first. *)
Definition cycles (hs : list (RunHost F)) (c : CPUCheck F) : CPUCheck F :=
  foldl (fun c h => self (Run h c)) c hs.

(** The snapshot a cycle takes as [t], when it gets that far. *)
Definition sampled (h : RunHost F) : option (TimesStat F) :=
  match GetSender h, times h with
  | None, (t :: _, None) => Some t
  | _, _ => None
  end.

(** How often the sender was committed. *)
Definition commits (calls : list (SenderCall F)) : nat :=
  length (omap (fun call => match call with
                            | Commit => Some tt
                            | Gauge _ _ _ _ => None
                            end) calls).

End Cycles.

(** A first sample at which every counter still reads zero. *)
Definition sample_zero : GetSystemTimes := system_times 0 0 0.

(** A GetSystemTimes call that fails and leaves no last error behind. *)
Definition sample_failed_silently : GetSystemTimes :=
  {| r := 0;
     lpIdleTime := FILETIME_of 0;
     lpKernelTime := FILETIME_of 0;
     lpUserTime := FILETIME_of 0;
     GetLastError := None |}.

(** ** The legacy agent configuration

    [GetLegacyAgentConfig] and [getLegacyIntegrationConfigFromFile].  The
    go-ini and yaml packages and the file system are inputs of the model, at
    the interface the code uses. *)

(** LegacyConfig is a simple key/value representation of the legacy
    agentConfig dictionary. *)
Abbreviation LegacyConfig := (gmap string string).

(** A section of an ini file: [GetKey] gives [value.String()] and the
    error. *)
Record IniSection : Type := {
  GetKey : string -> string * option error
}.

(** A loaded ini file: [GetSection] fails on a section that is not there,
    [Section] does not. *)
Record IniFile : Type := {
  GetSection : string -> IniSection * option error;
  Section_ : string -> IniSection
}.

(** Note: we'll only import a subset of these values. *)
Definition supportedValues : list string :=
  [ "dd_url"; "proxy_host"; "proxy_port"; "proxy_user"; "proxy_password";
    "skip_ssl_validation"; "api_key"; "hostname"; "tags"; "forwarder_timeout";
    "default_integration_http_timeout"; "collect_ec2_tags"; "additional_checksd";
    "exclude_process_args"; "histogram_aggregates"; "histogram_percentiles";
    "service_discovery_backend"; "sd_config_backend"; "sd_backend_host";
    "sd_backend_port"; "sd_backend_username"; "sd_backend_password";
    "sd_template_dir"; "consul_token"; "use_dogstatsd"; "dogstatsd_port";
    "statsd_metric_namespace"; "log_level"; "collector_log_file"; "log_to_syslog";
    "log_to_event_viewer"; "syslog_host"; "syslog_port";
    "collect_instance_metadata"; "listen_port"; "non_local_traffic";
    "create_dd_check_tags"; "bind_host"; "proxy_forbid_method_switch";
    "collect_orchestrator_tags"; "use_curl_http_client"; "dogstatsd_target";
    "gce_updated_hostname"; "process_agent_enabled"; "disable_file_logging";
    "enable_gohai"; "apm_enabled"; "env"; "receiver_port"; "extra_sample_rate";
    "max_traces_per_second"; "resource" ].

(** One turn of the loop over [supportedValues]: the first section that has
    the key gives the value, and the empty string is the default. *)
Definition importValue (main traceConfig traceReceiver traceSampler traceIgnore : IniSection)
    (config : LegacyConfig) (supportedValue : string) : LegacyConfig :=
  match GetKey main supportedValue with
  | (value, None) => <[supportedValue := value]> config
  | (_, Some _) =>
  match GetKey traceConfig supportedValue with
  | (value, None) => <[supportedValue := value]> config
  | (_, Some _) =>
  match GetKey traceReceiver supportedValue with
  | (value, None) => <[supportedValue := value]> config
  | (_, Some _) =>
  match GetKey traceSampler supportedValue with
  | (value, None) => <[supportedValue := value]> config
  | (_, Some _) =>
  match GetKey traceIgnore supportedValue with
  | (value, None) => <[supportedValue := value]> config
  | (_, Some _) =>
    (* provide an empty default value so we don't need to check for
       key existence when browsing the old configuration *)
    <[supportedValue := ""]> config
  end end end end end.

(** GetLegacyAgentConfig reads `datadog.conf` and returns a map that contains
    the same values as the agentConfig dictionary returned by `get_config()`
    in config.py.  [iniLoad] is [ini.Load]. *)
Definition GetLegacyAgentConfig (iniLoad : string -> IniFile * option error)
    (datadogConfPath : string) : LegacyConfig * option error :=
  let config : LegacyConfig := ∅ in
  let '(iniFile, err) := iniLoad datadogConfPath in
  match err with
  | Some err => (config, Some err)
  | None =>
    (* get the Main section *)
    let '(main, err) := GetSection iniFile "Main" in
    match err with
    | Some err => (config, Some err)
    | None =>
      (* get the Trace sections *)
      let traceConfig := Section_ iniFile "trace.config" in
      let traceReceiver := Section_ iniFile "trace.receiver" in
      let traceSampler := Section_ iniFile "trace.sampler" in
      let traceIgnore := Section_ iniFile "trace.ignore" in
      let config :=
        foldl (importValue main traceConfig traceReceiver traceSampler traceIgnore)
              config supportedValues in
      (* these are hardcoded in config.py *)
      let config := <["graphite_listen_port" := "None"]> config in
      let config := <["watchdog" := "True"]> config in
      let config := <["use_forwarder" := "False"]> config in
      let config := <["check_freq" := "15"]> config in
      let config := <["utf8_decoding" := "False"]> config in
      let config := <["ssl_certificate" := "datadog-cert.pem"]> config in
      let config := <["use_web_info_page" := "True"]> config in
      (* these values are postprocessed in config.py, manually overwrite them *)
      let config := <["endpoints" := "{}"]> config in
      let config := <["version" := "5.18.0"]> config in
      let config :=
        <["proxy_settings" :=
            "{'host': 'my-proxy.com', 'password': 'password', 'port': 3128, 'user': 'user'}"]>
          config in
      let config := <["service_discovery" := "True"]> config in
      (config, None)
    end
  end.

(** The keys [GetLegacyAgentConfig] sets whatever the file says. *)
Definition hardcodedValues : list (string * string) :=
  [ ("graphite_listen_port", "None"); ("watchdog", "True"); ("use_forwarder", "False");
    ("check_freq", "15"); ("utf8_decoding", "False");
    ("ssl_certificate", "datadog-cert.pem"); ("use_web_info_page", "True");
    ("endpoints", "{}"); ("version", "5.18.0");
    ("proxy_settings",
     "{'host': 'my-proxy.com', 'password': 'password', 'port': 3128, 'user': 'user'}");
    ("service_discovery", "True") ].

(** The value the loop finds for a key: the first of Main, trace.config,
    trace.receiver, trace.sampler and trace.ignore that has it. *)
Definition firstValue (sections : list IniSection) (key : string) : string :=
  default "" (head (omap (fun sec => match GetKey sec key with
                                     | (value, None) => Some value
                                     | (_, Some _) => None
                                     end) sections)).

(** [[]byte], as its bytes. *)
Definition Data : Type := string.

Module integration.

(** The fields of [integration.Config] that this code sets. *)
Record Config : Type := {
  Name : string;
  Instances : list Data;
  InitConfig : Data
}.

End integration.

Section LegacyIntegration.
Context {RawMap Value : Type}.

Record legacyConfigFormat : Type := {
  ADIdentifiers : list string;
  InitConfig : option Value;           (* interface{}: nil is [None] *)
  Instances : list RawMap;
  DockerImages : list string
}.

(** What [getLegacyIntegrationConfigFromFile] gets from outside. *)
Record YamlHost : Type := {
  ReadFile : string -> Data * option error;                    (* ioutil.ReadFile *)
  Unmarshal : Data -> legacyConfigFormat * option error;       (* yaml.Unmarshal(yamlFile, &cf) *)
  MarshalValue : Value -> Data * option error;                 (* yaml.Marshal(cf.InitConfig) *)
  MarshalRawMap : RawMap -> Data * option error                (* yaml.Marshal(instance) *)
}.

Definition getLegacyIntegrationConfigFromFile (h : YamlHost) (name fpath : string)
    : integration.Config * option error :=
  let config := {| integration.Name := name;
                   integration.Instances := [];
                   integration.InitConfig := "" |} in
  (* Read file contents *)
  let '(yamlFile, err) := ReadFile h fpath in
  match err with
  | Some err => (config, Some err)
  | None =>
    (* Parse configuration *)
    let '(cf, err) := Unmarshal h yamlFile in
    match err with
    | Some err => (config, Some err)
    | None =>
      (* If no valid instances were found this is not a valid configuration file *)
      if (length (Instances cf) <? 1)%nat then
        (config, Some "Configuration file contains no valid instances")
      else
        (* at this point the Yaml was already parsed, no need to check the error *)
        let config :=
          match InitConfig cf with
          | Some initConfig =>
            let '(rawInitConfig, _) := MarshalValue h initConfig in
            {| integration.Name := integration.Name config;
               integration.Instances := integration.Instances config;
               integration.InitConfig := rawInitConfig |}
          | None => config
          end in
        (* Go through instances and return corresponding []byte *)
        let config :=
          foldl (fun config instance =>
                   let '(rawConf, _) := MarshalRawMap h instance in
                   {| integration.Name := integration.Name config;
                      integration.Instances := integration.Instances config ++ [rawConf];
                      integration.InitConfig := integration.InitConfig config |})
                config (Instances cf) in
        (* DockerImages entry was found: we ignore it if no ADIdentifiers has been found *)
        if ((0 <? length (DockerImages cf))%nat && (length (ADIdentifiers cf) =? 0)%nat)%bool then
          (config,
           Some "the 'docker_images' section is deprecated, please use 'ad_identifiers' instead")
        else
          (config, None)     (* [err] is nil here *)
    end
  end.

(** The config of a failure that comes before any conversion: the name and
    nothing else. *)
Definition bare (name : string) : integration.Config :=
  {| integration.Name := name; integration.Instances := []; integration.InitConfig := "" |}.

(** The config built from a parsed file: its instances marshalled one by
    one, in order, and its init_config marshalled when there is one. *)
Definition converted (h : YamlHost) (name : string) (cf : legacyConfigFormat)
    : integration.Config :=
  {| integration.Name := name;
     integration.Instances := (fun instance => (MarshalRawMap h instance).1) <$> Instances cf;
     integration.InitConfig :=
       match InitConfig cf with
       | Some initConfig => (MarshalValue h initConfig).1
       | None => ""
       end |}.

End LegacyIntegration.

Arguments legacyConfigFormat : clear implicits.
Arguments YamlHost : clear implicits.

(** An ini file given by its sections and their keys, for the scenarios.
    A key is found where it is listed, and nowhere else. *)
Definition section_of (keys : list (string * string)) : IniSection :=
  {| GetKey := fun key =>
       match list_find (fun kv => kv.1 = key) keys with
       | Some (_, (_, value)) => (value, None)
       | None => ("", Some "key not exists")
       end |}.

Definition file_of (sections : list (string * list (string * string))) : IniFile :=
  {| GetSection := fun name =>
       match list_find (fun sec => sec.1 = name) sections with
       | Some (_, (_, keys)) => (section_of keys, None)
       | None => (section_of [], Some "section does not exist")
       end;
     Section_ := fun name =>
       match list_find (fun sec => sec.1 = name) sections with
       | Some (_, (_, keys)) => section_of keys
       | None => section_of []
       end |}.

(** A datadog.conf with an api key and a host name in Main, a host name and
    an environment for the trace agent, and a version nobody asked for. *)
Definition datadog_conf : IniFile :=
  file_of [ ("Main", [ ("api_key", "abc"); ("hostname", "web1"); ("version", "4.0.0") ]);
            ("trace.config", [ ("hostname", "tracer"); ("env", "prod") ]) ].

Definition load_datadog_conf (path : string) : IniFile * option error :=
  if bool_decide (path = "datadog.conf") then (datadog_conf, None)
  else (file_of [], Some "no such file").

(** A yaml package that reads a file as: one instance per line, each
    marshalled back as the line itself.  The scenarios need no more. *)
Definition yaml_lines (files : list (string * legacyConfigFormat string string))
    : YamlHost string string :=
  {| ReadFile := fun fpath =>
       if bool_decide (fpath ∈ files.*1) then (fpath, None) else ("", Some "no such file");
     Unmarshal := fun yamlFile =>
       match list_find (fun f => f.1 = yamlFile) files with
       | Some (_, (_, cf)) => (cf, None)
       | None => ({| ADIdentifiers := []; InitConfig := None; Instances := [];
                     DockerImages := [] |}, Some "yaml: unmarshal errors")
       end;
     MarshalValue := fun v => (v, None);
     MarshalRawMap := fun m => (m, None) |}.

(** Three legacy check files: a plain one, one that still uses
    docker_images, and one without instances. *)
Definition legacy_files : list (string * legacyConfigFormat string string) :=
  [ ("redis.yaml",
     {| ADIdentifiers := []; InitConfig := Some "min_collection_interval: 30";
        Instances := ["host: a"; "host: b"]; DockerImages := [] |});
    ("nginx.yaml",
     {| ADIdentifiers := []; InitConfig := None;
        Instances := ["url: x"]; DockerImages := ["nginx"] |});
    ("empty.yaml",
     {| ADIdentifiers := []; InitConfig := None;
        Instances := []; DockerImages := ["nginx"] |}) ].

(** * Properties *)

(** ** Reading what [Run] sent *)

Section Facts.
Context {F : Type} `{Float64 F}.

Local Open Scope f64_scope.

Lemma category_gauges_rates (c : CPUCheck F) (t : TimesStat F) (nbCycle : F)
    (tail : list (SenderCall F)) :
  category_gauges (rates c t nbCycle ++ tail) =
    let toPercent := f64_100 / (nbCycle - lastNbCycle c) in
    [ ("system.cpu.user", (User t - User (lastTimes c)) / nbCPU c * toPercent);
      ("system.cpu.system", (System t - System (lastTimes c)) / nbCPU c * toPercent);
      ("system.cpu.iowait", f64_0 * toPercent);
      ("system.cpu.idle", (Idle t - Idle (lastTimes c)) / nbCPU c * toPercent);
      ("system.cpu.stolen", f64_0 * toPercent);
      ("system.cpu.guest", f64_0 * toPercent) ] ++ category_gauges tail.
Proof. reflexivity. Qed.

Lemma metrics_rates (c : CPUCheck F) (t : TimesStat F) (nbCycle : F)
    (tail : list (SenderCall F)) :
  metrics (rates c t nbCycle ++ tail) = category_metrics ++ metrics tail.
Proof. reflexivity. Qed.

Lemma category_gauges_closing (res : Z * option error) :
  category_gauges (closing res) = [].
Proof. destruct res as [val [err|]]; reflexivity. Qed.

(** A cycle whose sample succeeded. *)
Lemma Run_sampled (h : RunHost F) (c : CPUCheck F) (t : TimesStat F)
    (rest : list (TimesStat F)) :
  GetSender h = None ->
  times h = (t :: rest, None) ->
  let nbCycle := Total t / nbCPU c in
  ret (Run h c) = Return None /\
  self (Run h c) = {| nbCPU := nbCPU c; lastNbCycle := nbCycle;
                      lastTimes := t; counter := counter c |} /\
  sender (Run h c) =
    (if f64_ne (lastNbCycle c) f64_0 then rates c t nbCycle else [])
    ++ closing (GetSingleValue h (counter c)) /\
  logged (Run h c) =
    match (GetSingleValue h (counter c)).2 with
    | Some err => [Warnf ("Error getting handle value " +:+ err)]
    | None => []
    end.
Proof.
  intros Hsender Htimes nbCycle. unfold Run, closing.
  rewrite Hsender, Htimes; simpl.
  destruct (GetSingleValue h (counter c)) as [val [err|]]; simpl; auto.
Qed.

(** Every cycle either samples, or stops before touching the sender and the
    check, returning an error.  In particular [cpuTimes[0]] is never out of
    range. *)
Lemma Run_cases (h : RunHost F) (c : CPUCheck F) :
  (exists t rest, GetSender h = None /\ times h = (t :: rest, None)) \/
  ((exists err, ret (Run h c) = Return (Some err)) /\
   sender (Run h c) = [] /\ self (Run h c) = c).
Proof.
  unfold Run. destruct (GetSender h) as [err|]; [right; eauto|].
  destruct (times h) as [[|t rest] [err|]]; simpl; eauto 6.
Qed.

Lemma Configure_keeps_baseline (hc : ConfigureHost F) (c : CPUCheck F) :
  lastNbCycle (self (Configure hc c)) = lastNbCycle c /\
  lastTimes (self (Configure hc c)) = lastTimes c.
Proof.
  unfold Configure. destruct (GetCpuInfo hc) as [info [err|]]; [auto|].
  destruct (ParseFloat hc _) as [cpucount perr].
  destruct (GetCounterSet hc) as [set [err|]]; auto.
Qed.

End Facts.






(** ** The cycle: first run, sampling errors, counter errors *)

Section Lifecycle.
Context {F : Type} `{Float64 F}.

Local Open Scope f64_scope.

Lemma metrics_closing (res : Z * option error) (m : string) :
  m ∈ metrics (closing (F:=F) res) -> m = "system.cpu.interrupt".
Proof.
  destruct res as [val [err|]]; cbn; [intros Hm; inversion Hm|].
  intros Hm. apply list_elem_of_singleton in Hm. exact Hm.
Qed.

(** C2. The first Run after a successful Configure of a fresh check sends no
    category gauge, whatever the host answers: the only metric it can send
    is system.cpu.interrupt.  When it gets a sample it returns nil and
    stores the sample and its per-CPU cycle count as the baseline. *)
Theorem first_Run_seeds (hc : ConfigureHost F) (h : RunHost F) :
  ret (Configure hc cpuFactory) = Return None ->
  let c := self (Configure hc cpuFactory) in
  category_gauges (sender (Run h c)) = [] /\
  (forall m : string, m ∈ metrics (sender (Run h c)) -> m = "system.cpu.interrupt") /\
  (forall (t : TimesStat F) (rest : list (TimesStat F)),
     GetSender h = None ->
     times h = (t :: rest, None) ->
     ret (Run h c) = Return None /\
     lastTimes (self (Run h c)) = t /\
     lastNbCycle (self (Run h c)) = Total t / nbCPU c).
Proof.
  intros _ c.
  assert (Hfresh : f64_ne (lastNbCycle c) f64_0 = false).
  { unfold c. rewrite (proj1 (Configure_keeps_baseline hc cpuFactory)).
    apply f64_0_ne_0. }
  split; [|split].
  - destruct (Run_cases h c) as [(t & rest & Hsender & Htimes) | (_ & -> & _)];
      [|reflexivity].
    destruct (Run_sampled h c t rest Hsender Htimes) as (_ & _ & -> & _).
    rewrite Hfresh. apply category_gauges_closing.
  - intros m.
    destruct (Run_cases h c) as [(t & rest & Hsender & Htimes) | (_ & -> & _)];
      [|intros Hm; inversion Hm].
    destruct (Run_sampled h c t rest Hsender Htimes) as (_ & _ & -> & _).
    rewrite Hfresh. apply metrics_closing.
  - intros t rest Hsender Htimes.
    destruct (Run_sampled h c t rest Hsender Htimes) as (-> & -> & _).
    auto.
Qed.

(** C4. When sampling fails (times() returns an error, or no entry at all)
    Run returns an error, the sampler's own when it gave one; nothing is
    sent, so nothing is gauged or committed; and the check is left as it
    was, so the next cycle runs exactly as it would have. *)
Theorem Run_sample_error (h : RunHost F) (c : CPUCheck F) :
  GetSender h = None ->
  (times h).2 ≠ None \/ (times h).1 = [] ->
  ret (Run h c) =
    Return (Some (default "no cpu stats retrieve (empty results)" (times h).2)) /\
  sender (Run h c) = [] /\
  self (Run h c) = c /\
  (forall h' : RunHost F, Run h' (self (Run h c)) = Run h' c).
Proof.
  intros Hsender Hfail. unfold Run. rewrite Hsender.
  destruct (times h) as [cpuTimes [err|]]; simpl in *; [auto|].
  destruct Hfail as [Hfail | ->]; [contradiction|]. simpl. auto.
Qed.

(** A failed GetSystemTimes call is a failed sample. *)
Lemma Times_failed (sys : GetSystemTimes) :
  r sys = 0%Z -> ((Times (F:=F) sys).2 ≠ None \/ (Times (F:=F) sys).1 = []).
Proof. intros Hr. unfold Times. rewrite Hr. simpl. auto. Qed.

(** C5. With a sample and a stored baseline, a failing counter read costs
    the cycle one metric only: Run sends the six category gauges and the
    commit, logs a warning and returns nil, and the baseline advances.
    Had the read succeeded, system.cpu.interrupt would be the seventh
    metric. *)
Theorem Run_counter_unavailable (h : RunHost F) (c : CPUCheck F) (t : TimesStat F)
    (rest : list (TimesStat F)) :
  GetSender h = None ->
  times h = (t :: rest, None) ->
  f64_ne (lastNbCycle c) f64_0 = true ->
  (forall (val : Z) (err : error),
     GetSingleValue h (counter c) = (val, Some err) ->
     ret (Run h c) = Return None /\
     sender (Run h c) = rates c t (Total t / nbCPU c) ++ [Commit] /\
     metrics (sender (Run h c)) = category_metrics /\
     logged (Run h c) = [Warnf ("Error getting handle value " +:+ err)] /\
     lastTimes (self (Run h c)) = t /\
     lastNbCycle (self (Run h c)) = Total t / nbCPU c) /\
  (forall val : Z,
     GetSingleValue h (counter c) = (val, None) ->
     metrics (sender (Run h c)) = category_metrics ++ ["system.cpu.interrupt"]).
Proof.
  intros Hsender Htimes Hstored.
  destruct (Run_sampled h c t rest Hsender Htimes) as (-> & -> & -> & ->).
  rewrite Hstored.
  split; intros val; [intros err|]; intros ->; rewrite metrics_rates; auto 10.
Qed.

End Lifecycle.

(** The scenario of C2: the first cycle on four processors gauges no category
    and stores 1000 / 4 cycles. *)
Lemma first_Run_seeds_scenario :
  category_gauges
    (sender (Run (host_run sample_prev (3, None)) (configured four_cpus))) = [] /\
  lastNbCycle (seeded four_cpus sample_prev) = 250%float.
Proof.
  destruct (first_Run_seeds (host_configure four_cpus) (host_run sample_prev (3, None)))
    as (Hnone & _ & Hseed).
  - reflexivity.
  - split; [exact Hnone|].
    vm_compute; reflexivity.
Defined.

(** The scenario of C4: GetSystemTimes fails on a seeded check. *)
Lemma Run_sample_error_scenario :
  ret (Run (F:=float) (host_run sample_failed (3, None)) (seeded four_cpus sample_prev)) =
    Return (Some "Access is denied.") /\
  sender (Run (F:=float) (host_run sample_failed (3, None)) (seeded four_cpus sample_prev)) = [] /\
  self (Run (F:=float) (host_run sample_failed (3, None)) (seeded four_cpus sample_prev)) =
    seeded four_cpus sample_prev.
Proof.
  destruct (Run_sample_error (F:=float)
              (host_run sample_failed (3, None)) (seeded four_cpus sample_prev))
    as (Hret & Hsent & Hself & _).
  - reflexivity.
  - apply Times_failed. reflexivity.
  - auto.
Defined.

(** The scenario of C5: the second cycle, with a counter that cannot be read. *)
Lemma Run_counter_unavailable_scenario :
  metrics
    (sender (Run (F:=float) (host_run sample_curr (0, Some "PDH_INVALID_DATA"))
                 (seeded four_cpus sample_prev))) = category_metrics.
Proof.
  destruct (Run_counter_unavailable (F:=float)
              (host_run sample_curr (0, Some "PDH_INVALID_DATA"))
              (seeded four_cpus sample_prev)
              {| CPU := "cpu-total"; User := 140%float; System := 70%float;
                 Idle := 990%float |} [])
    as (Hfails & _).
  - reflexivity.
  - vm_compute; reflexivity.
  - vm_compute; reflexivity.
  - destruct (Hfails 0%Z "PDH_INVALID_DATA" eq_refl) as (_ & _ & Hmetrics & _).
    exact Hmetrics.
Defined.

(** ** Equal cycle counts: the division by zero *)

(** Go's [d == 0] on float64 holds of the two zeros only. *)
Lemma binary64_eqb_0 (d : float) :
  PrimFloat.eqb d 0 = true -> d = 0%float \/ d = (-0)%float.
Proof.
  intros Hd. rewrite FloatAxioms.eqb_spec in Hd.
  rewrite <- (FloatAxioms.SF2Prim_Prim2SF d).
  destruct (Prim2SF d) as [[|]| [|] | | [|] m e]; try discriminate Hd;
    [right|left]; reflexivity.
Qed.

(** C3, on the code's own check state: the stored baseline and the sample
    of [sample_prev] again.  The cycle counts are equal, and Run gauges all
    six categories, each with the value NaN. *)
Lemma zero_delta_emits_rates :
  let c : CPUCheck float := seeded four_cpus sample_prev in
  let h : RunHost float := host_run sample_prev (0, None) in
  PrimFloat.eqb (PrimFloat.sub (lastNbCycle (self (Run h c))) (lastNbCycle c)) 0 = true /\
  category_gauges (sender (Run h c)) ≠ [] /\
  category_gauges (sender (Run h c)) =
    [ ("system.cpu.user", nan); ("system.cpu.system", nan); ("system.cpu.iowait", nan);
      ("system.cpu.idle", nan); ("system.cpu.stolen", nan); ("system.cpu.guest", nan) ].
Proof.
  cbv zeta. split; [vm_compute; reflexivity|].
  split; [vm_compute; discriminate|vm_compute; reflexivity].
Qed.

(** C3, as the code has it.  In float64, with a sample, a stored baseline
    (nonzero [lastNbCycle]) and delta_cycles == 0, Run returns nil and
    advances the baseline, and it does divide by zero: toPercent is an
    infinity, all six category gauges are sent, each the per-CPU delta times
    that infinity, which for iowait, stolen and guest is NaN. *)
Theorem Run_zero_delta (h : RunHost float) (c : CPUCheck float) (t : TimesStat float)
    (rest : list (TimesStat float)) :
  GetSender h = None ->
  times h = (t :: rest, None) ->
  f64_ne (lastNbCycle c) f64_0 = true ->
  let nbCycle := PrimFloat.div (Total t) (nbCPU c) in
  PrimFloat.eqb (PrimFloat.sub nbCycle (lastNbCycle c)) 0 = true ->
  ret (Run h c) = Return None /\
  lastTimes (self (Run h c)) = t /\
  lastNbCycle (self (Run h c)) = nbCycle /\
  exists toPercent : float,
    toPercent = PrimFloat.div 100 (PrimFloat.sub nbCycle (lastNbCycle c)) /\
    (toPercent = infinity \/ toPercent = neg_infinity) /\
    category_gauges (sender (Run h c)) =
      [ ("system.cpu.user",
         PrimFloat.mul (PrimFloat.div (PrimFloat.sub (User t) (User (lastTimes c))) (nbCPU c))
                       toPercent);
        ("system.cpu.system",
         PrimFloat.mul (PrimFloat.div (PrimFloat.sub (System t) (System (lastTimes c))) (nbCPU c))
                       toPercent);
        ("system.cpu.iowait", nan);
        ("system.cpu.idle",
         PrimFloat.mul (PrimFloat.div (PrimFloat.sub (Idle t) (Idle (lastTimes c))) (nbCPU c))
                       toPercent);
        ("system.cpu.stolen", nan);
        ("system.cpu.guest", nan) ].
Proof.
  intros Hsender Htimes Hstored nbCycle Hdelta.
  destruct (Run_sampled h c t rest Hsender Htimes) as (-> & -> & -> & _).
  rewrite Hstored, category_gauges_rates, category_gauges_closing.
  cbn [lastTimes lastNbCycle f64_div f64_sub f64_mul f64_0 f64_100 binary64].
  fold nbCycle. cbn zeta.
  repeat (split; [reflexivity|]).
  exists (PrimFloat.div 100 (PrimFloat.sub nbCycle (lastNbCycle c))).
  split; [reflexivity|].
  destruct (binary64_eqb_0 _ Hdelta) as [-> | ->]; split; auto.
Qed.

(** The scenario of C3: the same sample twice. *)
Lemma Run_zero_delta_scenario :
  category_gauges
    (sender (Run (host_run sample_prev (0, None)) (seeded four_cpus sample_prev)))
    !! 2%nat = Some ("system.cpu.iowait", nan).
Proof.
  destruct (Run_zero_delta (host_run sample_prev (0, None)) (seeded four_cpus sample_prev)
              {| CPU := "cpu-total"; User := 100%float; System := 50%float;
                 Idle := 850%float |} [])
    as (_ & _ & _ & toPercent & _ & _ & Hsent).
  - reflexivity.
  - vm_compute; reflexivity.
  - vm_compute; reflexivity.
  - vm_compute; reflexivity.
  - rewrite Hsent. reflexivity.
Defined.

(** ** Configure *)

Section Configuring.
Context {F : Type} `{Float64 F}.

(** When the CPU info cannot be queried, Configure returns an error and
    leaves the check untouched. *)
Lemma Configure_no_cpu_info (h : ConfigureHost F) (c : CPUCheck F)
    (info : gmap string string) (err : error) :
  GetCpuInfo h = (info, Some err) ->
  ret (Configure h c) = Return (Some "system.CPUCheck: could not query CPU info") /\
  self (Configure h c) = c.
Proof. intros Hinfo. unfold Configure. rewrite Hinfo. auto. Qed.

(** C6, as the code has it.  When the interrupt-time counter cannot be
    opened, Configure fails: it returns an error that carries the counter's
    error.  By then the check has taken the parsed processor count and
    whatever handle GetCounterSet returned. *)
Theorem Configure_counter_error (h : ConfigureHost F) (c : CPUCheck F)
    (info : gmap string string) (set : option PdhCounterSet) (err : error) :
  GetCpuInfo h = (info, None) ->
  GetCounterSet h = (set, Some err) ->
  ret (Configure h c) =
    Return (Some ("system.CPUCheck could not establish interrupt time counter " +:+ err)) /\
  nbCPU (self (Configure h c)) =
    (ParseFloat h (default "" (info !! "cpu_logical_processors"))).1 /\
  counter (self (Configure h c)) = set.
Proof.
  intros Hinfo Hset. unfold Configure. rewrite Hinfo, Hset.
  destruct (ParseFloat h _) as [cpucount perr]. auto.
Qed.

(** C10, on a host whose CPU info lacks the number of logical processors:
    the lookup yields the empty string, ParseFloat's error is dropped, and
    Configure returns nil with a processor count of 0 and the counter handle
    in place. *)
Theorem Configure_missing_count :
  no_cpu_count !! "cpu_logical_processors" = None /\
  ParseFloat (host_configure (F:=F) no_cpu_count) "" = (f64_0, Some "invalid syntax") /\
  Configure (host_configure no_cpu_count) cpuFactory =
    {| ret := Return None;
       self := {| nbCPU := f64_0;
                  lastNbCycle := lastNbCycle cpuFactory;
                  lastTimes := lastTimes cpuFactory;
                  counter := Some interrupt_time |};
       sender := [];
       logged := [] |}.
Proof. repeat split. Qed.

End Configuring.

(** What the dropped error costs: with a processor count of 0 the first
    cycle stores an infinite cycle count, and the next one gauges NaN. *)
Lemma missing_count_rates_are_NaN :
  lastNbCycle (seeded (F:=float) no_cpu_count sample_prev) = infinity /\
  category_gauges
    (sender (Run (host_run sample_curr (0, None)) (seeded no_cpu_count sample_prev))) =
    [ ("system.cpu.user", nan); ("system.cpu.system", nan); ("system.cpu.iowait", nan);
      ("system.cpu.idle", nan); ("system.cpu.stolen", nan); ("system.cpu.guest", nan) ].
Proof. split; vm_compute; reflexivity. Qed.

(** C6, on a host with four processors where the counter cannot be opened:
    Configure does not return nil. *)
Lemma Configure_counter_failure_is_fatal :
  ret (Configure (F:=float) (host_configure_no_counter four_cpus) cpuFactory) ≠ Return None.
Proof. vm_compute. discriminate. Qed.

(** The scenario of C6: the processor count is kept, the error returned. *)
Lemma Configure_counter_error_scenario :
  ret (Configure (F:=float) (host_configure_no_counter four_cpus) cpuFactory) =
    Return (Some "system.CPUCheck could not establish interrupt time counter PDH_CSTATUS_NO_OBJECT") /\
  nbCPU (self (Configure (F:=float) (host_configure_no_counter four_cpus) cpuFactory)) = 4%float.
Proof.
  destruct (Configure_counter_error (F:=float)
              (host_configure_no_counter four_cpus) cpuFactory four_cpus None
              "PDH_CSTATUS_NO_OBJECT" eq_refl eq_refl)
    as (Hret & HnbCPU & _).
  split; [exact Hret|].
  rewrite HnbCPU. vm_compute; reflexivity.
Defined.

(** ** The sampler *)

Lemma FILETIME_ticks_value (ft : FILETIME) :
  FILETIME_ok ft ->
  FILETIME_ticks ft = FILETIME_value ft /\ (0 <= FILETIME_value ft < 2 ^ 64)%Z.
Proof.
  intros [[Hlo0 Hlo] [Hhi0 Hhi]]. unfold FILETIME_ticks, FILETIME_value, uint64.
  rewrite Z.shiftl_mul_pow2 by lia.
  rewrite (Z.mod_small (DwHighDateTime ft)) by lia.
  rewrite (Z.mod_small (DwLowDateTime ft)) by lia.
  rewrite (Z.mod_small (DwHighDateTime ft * 2 ^ 32)) by lia.
  rewrite Z.mod_small by lia. lia.
Qed.

Lemma FILETIME_of_ok (ticks : Z) :
  (0 <= ticks < 2 ^ 64)%Z ->
  FILETIME_ok (FILETIME_of ticks) /\ FILETIME_value (FILETIME_of ticks) = ticks.
Proof.
  intros Hticks. unfold FILETIME_ok, is_uint32, FILETIME_value, FILETIME_of; simpl.
  pose proof (Z.mod_pos_bound ticks (2 ^ 32) ltac:(lia)).
  pose proof (Z.div_mod ticks (2 ^ 32) ltac:(lia)).
  assert (0 <= ticks / 2 ^ 32 < 2 ^ 32)%Z.
  { split; [apply Z.div_pos; lia|apply Z.div_lt_upper_bound; lia]. }
  lia.
Qed.

Section Sampling.
Context {F : Type} `{Float64 F}.

Local Open Scope f64_scope.

(** A successful GetSystemTimes call yields one snapshot, computed from the
    three 64-bit values. *)
Lemma Times_sampled (sys : GetSystemTimes) :
  r sys ≠ 0%Z ->
  FILETIME_ok (lpIdleTime sys) ->
  FILETIME_ok (lpKernelTime sys) ->
  FILETIME_ok (lpUserTime sys) ->
  Times sys =
    ([ {| CPU := "cpu-total";
          User := f64_of_uint64 (FILETIME_value (lpUserTime sys));
          System := f64_of_uint64
                      ((FILETIME_value (lpKernelTime sys) - FILETIME_value (lpIdleTime sys))
                       mod 2 ^ 64);
          Idle := f64_of_uint64 (FILETIME_value (lpIdleTime sys)) |} ], None).
Proof.
  intros Hr Hidle Hkernel Huser.
  destruct (FILETIME_ticks_value _ Hidle) as [Eidle _].
  destruct (FILETIME_ticks_value _ Hkernel) as [Ekernel _].
  destruct (FILETIME_ticks_value _ Huser) as [Euser _].
  unfold Times. apply Z.eqb_neq in Hr. rewrite Hr.
  rewrite Eidle, Ekernel, Euser. reflexivity.
Qed.

(** C8. A successful call of Times returns one snapshot, whose system value
    is float64 of the uint64 difference kernel - idle of the tick counts the
    OS reported: the subtraction is made on every successful path.  When the
    kernel count includes the idle count (idle <= kernel) this is their
    difference as integers. *)
Theorem Times_system (sys : GetSystemTimes) :
  r sys ≠ 0%Z ->
  FILETIME_ok (lpIdleTime sys) ->
  FILETIME_ok (lpKernelTime sys) ->
  FILETIME_ok (lpUserTime sys) ->
  let idle := FILETIME_value (lpIdleTime sys) in
  let kernel := FILETIME_value (lpKernelTime sys) in
  let user := FILETIME_value (lpUserTime sys) in
  Times sys =
    ([ {| CPU := "cpu-total";
          User := f64_of_uint64 user;
          System := f64_of_uint64 ((kernel - idle) mod 2 ^ 64);
          Idle := f64_of_uint64 idle |} ], None) /\
  ((idle <= kernel)%Z ->
   Times sys =
     ([ {| CPU := "cpu-total";
           User := f64_of_uint64 user;
           System := f64_of_uint64 (kernel - idle);
           Idle := f64_of_uint64 idle |} ], None)).
Proof.
  intros Hr Hidle Hkernel Huser idle kernel user.
  pose proof (Times_sampled sys Hr Hidle Hkernel Huser) as Htimes.
  fold idle kernel user in Htimes.
  split; [exact Htimes|].
  intros Hle. rewrite Htimes.
  destruct (FILETIME_ticks_value _ Hidle) as [_ Ridle].
  destruct (FILETIME_ticks_value _ Hkernel) as [_ Rkernel].
  fold idle in Ridle. fold kernel in Rkernel.
  rewrite Z.mod_small by lia. reflexivity.
Qed.

(** C9, as the code has it.  When the kernel count is below the idle count
    the system value is not negative: it is float64 of the wrapped
    difference kernel - idle + 2^64.  Times returns it with a nil error, and
    a Run that samples it returns nil, logs nothing, stores it in the
    baseline and, when it has a baseline, gauges system.cpu.system from it
    unclamped. *)
Theorem Times_system_wraps (sys : GetSystemTimes) (val : Z) (c : CPUCheck F) :
  r sys ≠ 0%Z ->
  FILETIME_ok (lpIdleTime sys) ->
  FILETIME_ok (lpKernelTime sys) ->
  FILETIME_ok (lpUserTime sys) ->
  let idle := FILETIME_value (lpIdleTime sys) in
  let kernel := FILETIME_value (lpKernelTime sys) in
  let user := FILETIME_value (lpUserTime sys) in
  (kernel < idle)%Z ->
  let wrapped := (kernel - idle + 2 ^ 64)%Z in
  let t := {| CPU := "cpu-total";
              User := f64_of_uint64 user;
              System := f64_of_uint64 wrapped;
              Idle := f64_of_uint64 idle |} in
  let h := host_run sys (val, None) in
  (0 < wrapped < 2 ^ 64)%Z /\
  Times sys = ([t], None) /\
  ret (Run h c) = Return None /\
  logged (Run h c) = [] /\
  lastTimes (self (Run h c)) = t /\
  (f64_ne (lastNbCycle c) f64_0 = true ->
   category_gauges (sender (Run h c)) !! 1%nat =
     Some ("system.cpu.system",
           (f64_of_uint64 wrapped - System (lastTimes c)) / nbCPU c
           * (f64_100 / (Total t / nbCPU c - lastNbCycle c)))).
Proof.
  intros Hr Hidle Hkernel Huser idle kernel user Hlt wrapped t h.
  destruct (FILETIME_ticks_value _ Hidle) as [_ Ridle].
  destruct (FILETIME_ticks_value _ Hkernel) as [_ Rkernel].
  fold idle in Ridle. fold kernel in Rkernel.
  assert (Hwrapped : (0 < wrapped < 2 ^ 64)%Z) by (unfold wrapped; lia).
  assert (Htimes : Times sys = ([t], None)).
  { rewrite (Times_sampled sys Hr Hidle Hkernel Huser).
    fold idle kernel user. unfold t. do 4 f_equal.
    replace (kernel - idle)%Z with (wrapped + -1 * 2 ^ 64)%Z by (unfold wrapped; lia).
    rewrite Z.mod_add by lia. apply Z.mod_small. lia. }
  destruct (Run_sampled h c t [] eq_refl Htimes) as (-> & -> & -> & ->).
  repeat (split; [reflexivity || assumption|]).
  intros ->. rewrite category_gauges_rates. reflexivity.
Qed.

End Sampling.

(** The scenario of C8: kernel 1060 and idle 990 give system 70. *)
Lemma Times_system_scenario :
  Times (F:=float) sample_curr =
    ([ {| CPU := "cpu-total"; User := 140%float; System := 70%float; Idle := 990%float |} ],
     None).
Proof.
  destruct (Times_system (F:=float) sample_curr) as [Htimes _].
  - discriminate.
  - apply FILETIME_of_ok. lia.
  - apply FILETIME_of_ok. lia.
  - apply FILETIME_of_ok. lia.
  - rewrite Htimes. vm_compute; reflexivity.
Defined.

(** C9, on the code's own check state: the baseline of [sample_prev], then a
    sample with kernel 980 below idle 990.  The system value is 2^64 (the
    wrapped difference 2^64 - 10, rounded), Times and Run return nil,
    nothing is logged, and system.cpu.system is gauged, at 100. *)
Lemma kernel_below_idle_wraps :
  let c : CPUCheck float := seeded four_cpus sample_prev in
  let h : RunHost float := host_run sample_wrapped (3, None) in
  (FILETIME_value (lpKernelTime sample_wrapped) < FILETIME_value (lpIdleTime sample_wrapped))%Z /\
  Times (F:=float) sample_wrapped =
    ([ {| CPU := "cpu-total"; User := 140%float;
          System := 18446744073709551616%float; Idle := 990%float |} ], None) /\
  ret (Run h c) = Return None /\
  logged (Run h c) = [] /\
  category_gauges (sender (Run h c)) !! 1%nat = Some ("system.cpu.system", 100%float).
Proof. cbv zeta. repeat split; vm_compute; reflexivity. Qed.

(** The scenario of C9: the wrapped value becomes the stored baseline. *)
Lemma Times_system_wraps_scenario :
  System (lastTimes (self (Run (F:=float) (host_run sample_wrapped (3, None))
                               (seeded four_cpus sample_prev)))) =
    18446744073709551616%float.
Proof.
  destruct (Times_system_wraps (F:=float) sample_wrapped 3 (seeded four_cpus sample_prev))
    as (_ & _ & _ & _ & Hstored & _).
  - discriminate.
  - apply FILETIME_of_ok. lia.
  - apply FILETIME_of_ok. lia.
  - apply FILETIME_of_ok. lia.
  - vm_compute; reflexivity.
  - rewrite Hstored. vm_compute; reflexivity.
Defined.

(** * Further properties of the check *)

Section Cycle.
Context {F : Type} `{Float64 F}.

Local Open Scope f64_scope.

Lemma sampled_Some (h : RunHost F) (t : TimesStat F) :
  sampled h = Some t <-> GetSender h = None /\ exists rest, times h = (t :: rest, None).
Proof.
  unfold sampled. destruct (GetSender h) as [err|].
  - split; [discriminate|intros [? _]; discriminate].
  - destruct (times h) as [[|t' rest] [err|]]; split;
      try discriminate; try (intros [_ [? ?]]; discriminate).
    + intros [= ->]. eauto.
    + intros [_ [rest' [= -> _]]]. reflexivity.
Qed.

Lemma sampled_None (h : RunHost F) (c : CPUCheck F) :
  sampled h = None ->
  (exists err, ret (Run h c) = Return (Some err)) /\
  sender (Run h c) = [] /\ self (Run h c) = c.
Proof.
  intros Hnone.
  destruct (Run_cases h c) as [(t & rest & Hsender & Htimes) | Hfailed]; [|exact Hfailed].
  assert (Hsome : sampled h = Some t) by (apply sampled_Some; eauto).
  congruence.
Qed.

(** X1. Run never panics: the length test guards [cpuTimes[0]].  It returns
    nil exactly when the sender was available and times() returned at least
    one entry and no error; in every other case, a missing sender included,
    nothing is sent and the check is left as it was. *)
Theorem Run_completion (h : RunHost F) (c : CPUCheck F) :
  (forall msg : string, ret (Run h c) ≠ Panic msg) /\
  (ret (Run h c) = Return None <-> is_Some (sampled h)) /\
  (ret (Run h c) = Return None \/ (sender (Run h c) = [] /\ self (Run h c) = c)).
Proof.
  destruct (sampled h) as [t|] eqn:Hsampled.
  - apply sampled_Some in Hsampled as [Hsender [rest Htimes]].
    destruct (Run_sampled h c t rest Hsender Htimes) as (Hret & _).
    rewrite Hret. split; [discriminate|]. split; [|auto].
    split; eauto.
  - destruct (sampled_None h c Hsampled) as ([err Hret] & Hsent & Hself).
    rewrite Hret. split; [discriminate|]. split; [|auto].
    split; [discriminate|]. intros [? ?]; discriminate.
Qed.

(** X2. A cycle that samples commits the sender once, as its last call,
    after at most seven gauges; a cycle that does not sample never commits. *)
Theorem Run_commits_once (h : RunHost F) (c : CPUCheck F) :
  commits (sender (Run h c)) = (if sampled h is Some _ then 1 else 0)%nat /\
  last (sender (Run h c)) = (if sampled h is Some _ then Some Commit else None) /\
  (length (metrics (sender (Run h c))) <= 7)%nat.
Proof.
  destruct (sampled h) as [t|] eqn:Hsampled.
  - apply sampled_Some in Hsampled as [Hsender [rest Htimes]].
    destruct (Run_sampled h c t rest Hsender Htimes) as (_ & _ & -> & _).
    destruct (GetSingleValue h (counter c)) as [val [err|]];
      destruct (f64_ne (lastNbCycle c) f64_0); cbn; repeat split; lia.
  - destruct (sampled_None h c Hsampled) as (_ & -> & _). cbn. repeat split; lia.
Qed.

Lemma Run_keeps_configuration (h : RunHost F) (c : CPUCheck F) :
  nbCPU (self (Run h c)) = nbCPU c /\ counter (self (Run h c)) = counter c.
Proof.
  destruct (Run_cases h c) as [(t & rest & Hsender & Htimes) | (_ & _ & ->)]; [|auto].
  destruct (Run_sampled h c t rest Hsender Htimes) as (_ & -> & _). auto.
Qed.

Lemma cycles_snoc (hs : list (RunHost F)) (h : RunHost F) (c : CPUCheck F) :
  cycles (hs ++ [h]) c = self (Run h (cycles hs c)).
Proof. unfold cycles. rewrite foldl_app. reflexivity. Qed.

(** X3. Over any number of cycles Run never touches the processor count or
    the counter handle, and the stored baseline is the snapshot of the last
    cycle that sampled, with its cycle count (the check's own baseline when
    no cycle sampled): cycles that fail leave no trace. *)
Theorem cycles_baseline (hs : list (RunHost F)) (c : CPUCheck F) :
  nbCPU (cycles hs c) = nbCPU c /\
  counter (cycles hs c) = counter c /\
  lastTimes (cycles hs c) = default (lastTimes c) (last (omap sampled hs)) /\
  lastNbCycle (cycles hs c) =
    default (lastNbCycle c) ((fun t => Total t / nbCPU c) <$> last (omap sampled hs)).
Proof.
  induction hs as [|h hs IH] using rev_ind; [auto|].
  destruct IH as (IHn & IHc & IHt & IHl).
  rewrite cycles_snoc, omap_app.
  destruct (Run_keeps_configuration h (cycles hs c)) as [-> ->].
  repeat (split; [assumption|]).
  replace (omap sampled [h]) with (option_list (sampled h))
    by (cbn; destruct (sampled h); reflexivity).
  destruct (sampled h) as [t|] eqn:Hsampled; unfold option_list; cbn.
  - apply sampled_Some in Hsampled as [Hsender [rest Htimes]].
    destruct (Run_sampled h (cycles hs c) t rest Hsender Htimes) as (_ & -> & _).
    rewrite last_snoc. cbn. rewrite IHn. auto.
  - destruct (sampled_None h (cycles hs c) Hsampled) as (_ & _ & ->).
    rewrite app_nil_r. auto.
Qed.

(** X4. A sample whose per-CPU cycle count is zero is stored, but the next
    cycle does not take it for a baseline: it gauges no category, as a first
    cycle would. *)
Theorem zero_cycle_count_is_no_baseline (h1 h2 : RunHost F) (c : CPUCheck F)
    (t : TimesStat F) :
  sampled h1 = Some t ->
  f64_ne (Total t / nbCPU c) f64_0 = false ->
  lastTimes (self (Run h1 c)) = t /\
  category_gauges (sender (Run h2 (self (Run h1 c)))) = [].
Proof.
  intros Hsampled Hzero.
  apply sampled_Some in Hsampled as [Hsender [rest Htimes]].
  destruct (Run_sampled h1 c t rest Hsender Htimes) as (_ & -> & _).
  split; [reflexivity|].
  match goal with |- context [Run h2 ?c1] => set (c' := c1) end.
  destruct (Run_cases h2 c') as [(t2 & rest2 & Hsender2 & Htimes2) | (_ & -> & _)];
    [|reflexivity].
  destruct (Run_sampled h2 c' t2 rest2 Hsender2 Htimes2) as (_ & _ & -> & _).
  unfold c' at 1. cbn [lastNbCycle]. rewrite Hzero.
  apply category_gauges_closing.
Qed.

(** X5. A failed GetSystemTimes call never passes for a sample, even when
    GetLastError has nothing to report: Times then returns neither a
    snapshot nor an error, and Run's own length test turns that into the
    error "no cpu stats retrieve (empty results)".  Nothing is sent and the
    check is left as it was. *)
Theorem Run_after_failed_call (sys : GetSystemTimes) (interrupt : Z * option error)
    (c : CPUCheck F) :
  r sys = 0%Z ->
  Times (F:=F) sys = ([], GetLastError sys) /\
  ret (Run (host_run sys interrupt) c) =
    Return (Some (default "no cpu stats retrieve (empty results)" (GetLastError sys))) /\
  sender (Run (host_run sys interrupt) c) = [] /\
  self (Run (host_run sys interrupt) c) = c.
Proof.
  intros Hr.
  assert (Htimes : Times (F:=F) sys = ([], GetLastError sys)).
  { unfold Times. rewrite Hr. reflexivity. }
  split; [exact Htimes|].
  unfold Run, host_run; cbn [GetSender times]. rewrite Htimes.
  destruct (GetLastError sys) as [err|]; cbn; auto.
Qed.

(** X6. Configure is idempotent: configuring again on the same host changes
    nothing more, and gives the same result. *)
Theorem Configure_idempotent (hc : ConfigureHost F) (c : CPUCheck F) :
  Configure hc (self (Configure hc c)) = Configure hc c.
Proof.
  unfold Configure. destruct (GetCpuInfo hc) as [info [err|]]; [reflexivity|].
  destruct (ParseFloat hc _) as [cpucount perr].
  destruct (GetCounterSet hc) as [set [err|]]; reflexivity.
Qed.

(** X7. Configure never resets the baseline: a check that holds one and is
    configured again, whatever Configure returns, gauges the six categories
    on its next sampling cycle, against the old baseline. *)
Theorem reconfigured_check_keeps_baseline (hc : ConfigureHost F) (h : RunHost F)
    (c : CPUCheck F) (t : TimesStat F) :
  f64_ne (lastNbCycle c) f64_0 = true ->
  sampled h = Some t ->
  let c' := self (Configure hc c) in
  lastTimes c' = lastTimes c /\
  lastNbCycle c' = lastNbCycle c /\
  exists tail,
    sender (Run h c') = rates c' t (Total t / nbCPU c') ++ tail /\
    category_gauges tail = [].
Proof.
  intros Hstored Hsampled c'.
  destruct (Configure_keeps_baseline hc c) as [Hcycle Hlast].
  fold c' in Hcycle, Hlast.
  apply sampled_Some in Hsampled as [Hsender [rest Htimes]].
  destruct (Run_sampled h c' t rest Hsender Htimes) as (_ & _ & -> & _).
  rewrite Hcycle, Hstored.
  repeat (split; [assumption || reflexivity|]).
  eexists. split; [reflexivity|]. apply category_gauges_closing.
Qed.

(** X8. Configure returns nil exactly when the CPU info could be queried and
    the counter set could be opened; what ParseFloat reports plays no part.
    When the CPU info cannot be queried the check is left as it was. *)
Theorem Configure_succeeds_iff (hc : ConfigureHost F) (c : CPUCheck F) :
  (ret (Configure hc c) = Return None <->
   (GetCpuInfo hc).2 = None /\ (GetCounterSet hc).2 = None) /\
  (forall msg : string, ret (Configure hc c) ≠ Panic msg) /\
  ((GetCpuInfo hc).2 = None \/ self (Configure hc c) = c).
Proof.
  unfold Configure. destruct (GetCpuInfo hc) as [info [err|]]; cbn.
  - repeat split; try discriminate; auto. intros [? _]; discriminate.
  - destruct (ParseFloat hc _) as [cpucount perr].
    destruct (GetCounterSet hc) as [set [err|]]; cbn;
      repeat split; try discriminate; auto. intros [_ ?]; discriminate.
Qed.

End Cycle.

(** The scenario of X4: on four processors, a first sample with every
    counter at zero, then the sample of [sample_curr]. *)
Lemma zero_cycle_count_is_no_baseline_scenario :
  category_gauges
    (sender (Run (F:=float) (host_run sample_curr (3, None)) (seeded four_cpus sample_zero)))
  = [].
Proof.
  destruct (zero_cycle_count_is_no_baseline (F:=float)
              (host_run sample_zero (0, None)) (host_run sample_curr (3, None))
              (configured four_cpus)
              {| CPU := "cpu-total"; User := 0%float; System := 0%float; Idle := 0%float |})
    as [_ Hnone].
  - vm_compute; reflexivity.
  - vm_compute; reflexivity.
  - exact Hnone.
Defined.

(** The scenario of X5: the call fails and GetLastError reports nothing. *)
Lemma Run_after_failed_call_scenario :
  ret (Run (F:=float) (host_run sample_failed_silently (3, None))
           (seeded four_cpus sample_prev)) =
    Return (Some "no cpu stats retrieve (empty results)").
Proof.
  destruct (Run_after_failed_call (F:=float) sample_failed_silently (3, None)
              (seeded four_cpus sample_prev))
    as (_ & Hret & _).
  - reflexivity.
  - exact Hret.
Defined.

(** The scenario of X7: a seeded check is configured again, on a host where
    the counter cannot be opened, and then samples [sample_curr]. *)
Lemma reconfigured_check_keeps_baseline_scenario :
  lastNbCycle
    (self (Configure (F:=float) (host_configure_no_counter four_cpus)
                     (seeded four_cpus sample_prev))) = 250%float.
Proof.
  destruct (reconfigured_check_keeps_baseline (F:=float)
              (host_configure_no_counter four_cpus) (host_run sample_curr (3, None))
              (seeded four_cpus sample_prev)
              {| CPU := "cpu-total"; User := 140%float; System := 70%float;
                 Idle := 990%float |})
    as (_ & Hcycle & _).
  - vm_compute; reflexivity.
  - vm_compute; reflexivity.
  - rewrite Hcycle. vm_compute; reflexivity.
Defined.

(** ** The rates in exact arithmetic *)






(** X12. Two valid FILETIMEs with the same tick count are the same: putting
    the two 32-bit halves together loses nothing. *)
Theorem FILETIME_ticks_injective (a b : FILETIME) :
  FILETIME_ok a -> FILETIME_ok b ->
  FILETIME_ticks a = FILETIME_ticks b -> a = b.
Proof.
  intros Ha Hb.
  destruct (FILETIME_ticks_value a Ha) as [-> _].
  destruct (FILETIME_ticks_value b Hb) as [-> _].
  destruct a as [alo ahi], b as [blo bhi], Ha as [[? ?] [? ?]], Hb as [[? ?] [? ?]].
  unfold FILETIME_value; simpl in *. intros Heq.
  f_equal; lia.
Qed.




Lemma FILETIME_ticks_injective_scenario :
  FILETIME_of 990 = {| DwLowDateTime := 990; DwHighDateTime := 0 |}.
Proof.
  apply FILETIME_ticks_injective.
  - apply FILETIME_of_ok. lia.
  - repeat split; vm_compute; congruence.
  - reflexivity.
Defined.

(** * The legacy agent configuration *)

Lemma importValue_insert (main traceConfig traceReceiver traceSampler traceIgnore : IniSection)
    (config : LegacyConfig) (key : string) :
  importValue main traceConfig traceReceiver traceSampler traceIgnore config key =
    <[key := firstValue [main; traceConfig; traceReceiver; traceSampler; traceIgnore] key]>
      config.
Proof.
  unfold importValue, firstValue. cbn.
  destruct (GetKey main key) as [v1 [e1|]]; [|reflexivity].
  destruct (GetKey traceConfig key) as [v2 [e2|]]; [|reflexivity].
  destruct (GetKey traceReceiver key) as [v3 [e3|]]; [|reflexivity].
  destruct (GetKey traceSampler key) as [v4 [e4|]]; [|reflexivity].
  destruct (GetKey traceIgnore key) as [v5 [e5|]]; reflexivity.
Qed.

Lemma lookup_foldl_importValue
    (main traceConfig traceReceiver traceSampler traceIgnore : IniSection)
    (keys : list string) (config : LegacyConfig) (key : string) :
  foldl (importValue main traceConfig traceReceiver traceSampler traceIgnore) config keys
    !! key =
  if bool_decide (key ∈ keys)
  then Some (firstValue [main; traceConfig; traceReceiver; traceSampler; traceIgnore] key)
  else config !! key.
Proof.
  revert config. induction keys as [|k keys IH]; intros config; [reflexivity|].
  cbn [foldl]. rewrite IH, importValue_insert.
  destruct (decide (key ∈ keys)) as [Hin|Hnotin].
  - rewrite !bool_decide_eq_true_2; [reflexivity| |assumption].
    apply elem_of_cons. auto.
  - rewrite (bool_decide_eq_false_2 (key ∈ keys)) by assumption.
    destruct (decide (key = k)) as [->|Hne].
    + rewrite bool_decide_eq_true_2 by apply elem_of_cons, or_introl, eq_refl.
      apply lookup_insert_eq.
    + rewrite bool_decide_eq_false_2.
      * apply lookup_insert_ne. congruence.
      * intros [?|?]%elem_of_cons; contradiction.
Qed.

Lemma hardcodedValues_NoDup : NoDup hardcodedValues.*1.
Proof. apply (bool_decide_unpack _). vm_compute. exact I. Qed.

Lemma supportedValues_not_hardcoded :
  Forall (fun key => key ∉ hardcodedValues.*1) supportedValues.
Proof. apply (bool_decide_unpack _). vm_compute. exact I. Qed.

Lemma supportedValues_NoDup : NoDup supportedValues.
Proof. apply (bool_decide_unpack _). vm_compute. exact I. Qed.

(** What a successful call returns: the hard-coded entries over the imported
    ones. *)
Lemma GetLegacyAgentConfig_loaded (iniLoad : string -> IniFile * option error)
    (datadogConfPath : string) (iniFile : IniFile) (main : IniSection) :
  iniLoad datadogConfPath = (iniFile, None) ->
  GetSection iniFile "Main" = (main, None) ->
  GetLegacyAgentConfig iniLoad datadogConfPath =
    (list_to_map hardcodedValues ∪
     foldl (importValue main (Section_ iniFile "trace.config")
                        (Section_ iniFile "trace.receiver")
                        (Section_ iniFile "trace.sampler")
                        (Section_ iniFile "trace.ignore"))
           ∅ supportedValues,
     None).
Proof.
  intros Hload Hmain. unfold GetLegacyAgentConfig. rewrite Hload, Hmain.
  f_equal.
  match goal with |- context [foldl ?f ∅ supportedValues] =>
    generalize (foldl f ∅ supportedValues) end.
  intros imported.
  rewrite <- (left_id_L ∅ (∪) imported) at 1.
  rewrite !insert_union_l. f_equal.
Qed.

(** X13. GetLegacyAgentConfig fails exactly when the file cannot be loaded
    or has no Main section; it then returns that error and an empty map,
    never a partly filled one. *)
Theorem GetLegacyAgentConfig_error (iniLoad : string -> IniFile * option error)
    (datadogConfPath : string) :
  (GetLegacyAgentConfig iniLoad datadogConfPath).2 =
    match (iniLoad datadogConfPath).2 with
    | Some err => Some err
    | None => (GetSection (iniLoad datadogConfPath).1 "Main").2
    end /\
  ((GetLegacyAgentConfig iniLoad datadogConfPath).2 = None \/
   (GetLegacyAgentConfig iniLoad datadogConfPath).1 = ∅).
Proof.
  unfold GetLegacyAgentConfig.
  destruct (iniLoad datadogConfPath) as [iniFile [err|]]; cbn; [auto|].
  destruct (GetSection iniFile "Main") as [main [err|]]; cbn; auto.
Qed.

(** X14. After a successful call every supported value has an entry, so no
    lookup of one needs a test for existence.  The entry holds the value of
    the first of the sections Main, trace.config, trace.receiver,
    trace.sampler and trace.ignore that has the key, and the empty string
    when none has it. *)
Theorem GetLegacyAgentConfig_supported (iniLoad : string -> IniFile * option error)
    (datadogConfPath : string) (iniFile : IniFile) (main : IniSection) (key : string) :
  iniLoad datadogConfPath = (iniFile, None) ->
  GetSection iniFile "Main" = (main, None) ->
  key ∈ supportedValues ->
  (GetLegacyAgentConfig iniLoad datadogConfPath).1 !! key =
    Some (firstValue [ main; Section_ iniFile "trace.config";
                       Section_ iniFile "trace.receiver";
                       Section_ iniFile "trace.sampler";
                       Section_ iniFile "trace.ignore" ] key).
Proof.
  intros Hload Hmain Hkey.
  rewrite (GetLegacyAgentConfig_loaded _ _ _ _ Hload Hmain). cbn [fst].
  rewrite lookup_union_r.
  - rewrite lookup_foldl_importValue, bool_decide_eq_true_2 by assumption. reflexivity.
  - apply not_elem_of_list_to_map.
    exact (proj1 (Forall_forall _ _) supportedValues_not_hardcoded key Hkey).
Qed.

(** X15. The eleven hard-coded entries hold their fixed values after every
    successful call: nothing in the file can change them. *)
Theorem GetLegacyAgentConfig_hardcoded (iniLoad : string -> IniFile * option error)
    (datadogConfPath : string) (key value : string) :
  (GetLegacyAgentConfig iniLoad datadogConfPath).2 = None ->
  (key, value) ∈ hardcodedValues ->
  (GetLegacyAgentConfig iniLoad datadogConfPath).1 !! key = Some value.
Proof.
  intros Hok Hkey.
  destruct (iniLoad datadogConfPath) as [iniFile [err|]] eqn:Hload;
    [unfold GetLegacyAgentConfig in Hok; rewrite Hload in Hok; discriminate Hok|].
  destruct (GetSection iniFile "Main") as [main [err|]] eqn:Hmain;
    [unfold GetLegacyAgentConfig in Hok; rewrite Hload, Hmain in Hok; discriminate Hok|].
  rewrite (GetLegacyAgentConfig_loaded _ _ _ _ Hload Hmain). cbn [fst].
  apply lookup_union_Some_l.
  apply elem_of_list_to_map_1; [exact hardcodedValues_NoDup|exact Hkey].
Qed.

(** X16. A successful call returns exactly 63 entries, the 52 supported
    values and the 11 hard-coded ones: a key of the file that is on neither
    list is not imported. *)
Theorem GetLegacyAgentConfig_keys (iniLoad : string -> IniFile * option error)
    (datadogConfPath : string) :
  (GetLegacyAgentConfig iniLoad datadogConfPath).2 = None ->
  dom (GetLegacyAgentConfig iniLoad datadogConfPath).1 =
    list_to_set (hardcodedValues.*1 ++ supportedValues) /\
  size (GetLegacyAgentConfig iniLoad datadogConfPath).1 = 63%nat.
Proof.
  intros Hok.
  destruct (iniLoad datadogConfPath) as [iniFile [err|]] eqn:Hload;
    [unfold GetLegacyAgentConfig in Hok; rewrite Hload in Hok; discriminate Hok|].
  destruct (GetSection iniFile "Main") as [main [err|]] eqn:Hmain;
    [unfold GetLegacyAgentConfig in Hok; rewrite Hload, Hmain in Hok; discriminate Hok|].
  rewrite (GetLegacyAgentConfig_loaded _ _ _ _ Hload Hmain). cbn [fst].
  assert (Hdom : dom (list_to_map (M:=gmap string string) hardcodedValues ∪
                      foldl (importValue main (Section_ iniFile "trace.config")
                                         (Section_ iniFile "trace.receiver")
                                         (Section_ iniFile "trace.sampler")
                                         (Section_ iniFile "trace.ignore"))
                            ∅ supportedValues)
                 = list_to_set (C:=gset string) (hardcodedValues.*1 ++ supportedValues)).
  { apply set_eq. intros key.
    rewrite elem_of_dom, lookup_union, lookup_foldl_importValue, lookup_empty.
    rewrite elem_of_list_to_set, elem_of_app.
    destruct (decide (key ∈ supportedValues)) as [Hin|Hnotin].
    - rewrite bool_decide_eq_true_2 by assumption.
      split; [auto|]. intros _.
      destruct (list_to_map hardcodedValues !! key); cbn; eauto.
    - rewrite bool_decide_eq_false_2 by assumption.
      rewrite (right_id None _).
      rewrite <- elem_of_dom, dom_list_to_map_L, elem_of_list_to_set. tauto. }
  split; [exact Hdom|].
  rewrite <- size_dom, Hdom, size_list_to_set.
  - reflexivity.
  - apply NoDup_app. split; [exact hardcodedValues_NoDup|].
    split; [|exact supportedValues_NoDup].
    intros key Hhard Hsupported.
    exact (proj1 (Forall_forall _ _) supportedValues_not_hardcoded key Hsupported Hhard).
Qed.

(** The scenario of X14: Main has the host name, so the trace agent's is not
    taken. *)
Lemma GetLegacyAgentConfig_supported_scenario :
  (GetLegacyAgentConfig load_datadog_conf "datadog.conf").1 !! "hostname" = Some "web1".
Proof.
  rewrite (GetLegacyAgentConfig_supported load_datadog_conf "datadog.conf"
             datadog_conf (GetSection datadog_conf "Main").1 "hostname").
  - reflexivity.
  - reflexivity.
  - reflexivity.
  - apply (bool_decide_unpack _). vm_compute. exact I.
Defined.

(** The scenario of X15: the file's own version entry is not the one
    returned. *)
Lemma GetLegacyAgentConfig_hardcoded_scenario :
  (GetLegacyAgentConfig load_datadog_conf "datadog.conf").1 !! "version" = Some "5.18.0".
Proof.
  apply GetLegacyAgentConfig_hardcoded.
  - reflexivity.
  - apply (bool_decide_unpack _). vm_compute. exact I.
Defined.

(** The scenario of X16. *)
Lemma GetLegacyAgentConfig_keys_scenario :
  size (GetLegacyAgentConfig load_datadog_conf "datadog.conf").1 = 63%nat.
Proof.
  apply (GetLegacyAgentConfig_keys load_datadog_conf "datadog.conf"). reflexivity.
Defined.

(** * Legacy integration configurations *)

Section IntegrationFile.
Context {RawMap Value : Type}.

Lemma foldl_instances (h : YamlHost RawMap Value) (instances : list RawMap)
    (config : integration.Config) :
  foldl (fun config instance =>
           let '(rawConf, _) := MarshalRawMap h instance in
           {| integration.Name := integration.Name config;
              integration.Instances := integration.Instances config ++ [rawConf];
              integration.InitConfig := integration.InitConfig config |})
        config instances =
  {| integration.Name := integration.Name config;
     integration.Instances :=
       integration.Instances config
       ++ ((fun instance => (MarshalRawMap h instance).1) <$> instances);
     integration.InitConfig := integration.InitConfig config |}.
Proof.
  revert config. induction instances as [|instance instances IH]; intros config; cbn.
  - rewrite app_nil_r. destruct config; reflexivity.
  - rewrite IH. destruct (MarshalRawMap h instance) as [rawConf err]; cbn.
    rewrite <- app_assoc. reflexivity.
Qed.

(** A file that was read and parsed and has an instance is converted, and
    only the docker_images test decides the error. *)
Lemma getLegacyIntegrationConfigFromFile_parsed (h : YamlHost RawMap Value)
    (name fpath : string) (yamlFile : Data) (cf : legacyConfigFormat RawMap Value) :
  ReadFile h fpath = (yamlFile, None) ->
  Unmarshal h yamlFile = (cf, None) ->
  Instances cf ≠ [] ->
  getLegacyIntegrationConfigFromFile h name fpath =
    (converted h name cf,
     if ((0 <? length (DockerImages cf))%nat && (length (ADIdentifiers cf) =? 0)%nat)%bool
     then Some "the 'docker_images' section is deprecated, please use 'ad_identifiers' instead"
     else None).
Proof.
  intros Hread Hparse Hinstances.
  unfold getLegacyIntegrationConfigFromFile, converted. rewrite Hread, Hparse.
  destruct (Instances cf) as [|instance instances] eqn:Hcf; [contradiction|].
  cbn [length Nat.ltb Nat.leb]. rewrite foldl_instances.
  destruct (InitConfig cf) as [initConfig|];
    [destruct (MarshalValue h initConfig) as [rawInitConfig err]|];
    destruct (DockerImages cf), (ADIdentifiers cf); reflexivity.
Qed.

(** X17. A file that can be read and parsed, has at least one instance, and
    does not use docker_images without ad_identifiers, is converted without
    error: the config has the name given, one marshalled entry per instance,
    in the order of the file, and the marshalled init_config when the file
    has one. *)
Theorem getLegacyIntegrationConfigFromFile_converts (h : YamlHost RawMap Value)
    (name fpath : string) (yamlFile : Data) (cf : legacyConfigFormat RawMap Value) :
  ReadFile h fpath = (yamlFile, None) ->
  Unmarshal h yamlFile = (cf, None) ->
  Instances cf ≠ [] ->
  DockerImages cf = [] \/ ADIdentifiers cf ≠ [] ->
  getLegacyIntegrationConfigFromFile h name fpath = (converted h name cf, None) /\
  length (integration.Instances (converted h name cf)) = length (Instances cf) /\
  (forall (i : nat) (instance : RawMap),
     Instances cf !! i = Some instance ->
     integration.Instances (converted h name cf) !! i = Some (MarshalRawMap h instance).1).
Proof.
  intros Hread Hparse Hinstances Hdocker.
  rewrite (getLegacyIntegrationConfigFromFile_parsed h name fpath yamlFile cf
             Hread Hparse Hinstances).
  split; [|split].
  - destruct Hdocker as [-> | Had]; [reflexivity|].
    destruct (ADIdentifiers cf); [contradiction|].
    rewrite andb_false_r. reflexivity.
  - cbn. apply length_fmap.
  - intros i instance Hi. cbn. rewrite list_lookup_fmap, Hi. reflexivity.
Qed.

(** X18. A file without instances is refused with "Configuration file
    contains no valid instances", as are a file that cannot be read and one
    that cannot be parsed, with the error of the read or the parse.  The
    test for instances comes first: such a file gets this error whatever its
    docker_images say.  The config returned with these errors has the name
    and nothing else. *)
Theorem getLegacyIntegrationConfigFromFile_refuses (h : YamlHost RawMap Value)
    (name fpath : string) :
  let read := ReadFile h fpath in
  let parsed := Unmarshal h read.1 in
  read.2 ≠ None \/ parsed.2 ≠ None \/ Instances parsed.1 = [] ->
  getLegacyIntegrationConfigFromFile h name fpath =
    (bare name,
     Some (default (default "Configuration file contains no valid instances" parsed.2)
                   read.2)).
Proof.
  intros read parsed Hfail. unfold getLegacyIntegrationConfigFromFile.
  subst parsed read.
  destruct (ReadFile h fpath) as [yamlFile [err|]]; cbn in *; [reflexivity|].
  destruct (Unmarshal h yamlFile) as [cf [err|]]; cbn in *; [reflexivity|].
  destruct Hfail as [Hfail | [Hfail | ->]]; try contradiction. reflexivity.
Qed.

(** X19. A file with instances that names docker_images and no
    ad_identifiers gets the deprecation error, and with it the config fully
    converted, not a bare one. *)
Theorem getLegacyIntegrationConfigFromFile_docker_images (h : YamlHost RawMap Value)
    (name fpath : string) (yamlFile : Data) (cf : legacyConfigFormat RawMap Value) :
  ReadFile h fpath = (yamlFile, None) ->
  Unmarshal h yamlFile = (cf, None) ->
  Instances cf ≠ [] ->
  DockerImages cf ≠ [] ->
  ADIdentifiers cf = [] ->
  getLegacyIntegrationConfigFromFile h name fpath =
    (converted h name cf,
     Some "the 'docker_images' section is deprecated, please use 'ad_identifiers' instead").
Proof.
  intros Hread Hparse Hinstances Hdocker Had.
  rewrite (getLegacyIntegrationConfigFromFile_parsed h name fpath yamlFile cf
             Hread Hparse Hinstances).
  rewrite Had. destruct (DockerImages cf); [contradiction|reflexivity].
Qed.

End IntegrationFile.

(** The scenario of X17: two instances, in order. *)
Lemma getLegacyIntegrationConfigFromFile_converts_scenario :
  getLegacyIntegrationConfigFromFile (yaml_lines legacy_files) "redis" "redis.yaml" =
    ({| integration.Name := "redis";
        integration.Instances := ["host: a"; "host: b"];
        integration.InitConfig := "min_collection_interval: 30" |}, None).
Proof.
  destruct (getLegacyIntegrationConfigFromFile_converts
              (yaml_lines legacy_files) "redis" "redis.yaml" "redis.yaml"
              {| ADIdentifiers := []; InitConfig := Some "min_collection_interval: 30";
                 Instances := ["host: a"; "host: b"]; DockerImages := [] |})
    as (Hconverts & _).
  - reflexivity.
  - reflexivity.
  - discriminate.
  - left. reflexivity.
  - exact Hconverts.
Defined.

(** The scenario of X18: no instance, and docker_images all the same. *)
Lemma getLegacyIntegrationConfigFromFile_refuses_scenario :
  getLegacyIntegrationConfigFromFile (yaml_lines legacy_files) "empty" "empty.yaml" =
    (bare "empty", Some "Configuration file contains no valid instances").
Proof.
  apply (getLegacyIntegrationConfigFromFile_refuses
           (yaml_lines legacy_files) "empty" "empty.yaml").
  right. right. reflexivity.
Defined.

(** The scenario of X19. *)
Lemma getLegacyIntegrationConfigFromFile_docker_images_scenario :
  getLegacyIntegrationConfigFromFile (yaml_lines legacy_files) "nginx" "nginx.yaml" =
    ({| integration.Name := "nginx";
        integration.Instances := ["url: x"];
        integration.InitConfig := "" |},
     Some "the 'docker_images' section is deprecated, please use 'ad_identifiers' instead").
Proof.
  apply (getLegacyIntegrationConfigFromFile_docker_images
           (yaml_lines legacy_files) "nginx" "nginx.yaml" "nginx.yaml"
           {| ADIdentifiers := []; InitConfig := None;
              Instances := ["url: x"]; DockerImages := ["nginx"] |});
    try reflexivity; discriminate.
Defined.

(** * Which metrics a cycle sends *)

Section Metrics.
Context {F : Type} `{Float64 F}.

(** X20. The metrics of a cycle, in order.  The six category gauges are sent
    together or not at all: all six, in their fixed order, exactly when the
    cycle sampled and the stored cycle count is nonzero, whatever the new
    cycle count is.  system.cpu.interrupt follows exactly when the cycle
    sampled and the counter could be read. *)
Theorem Run_metrics (h : RunHost F) (c : CPUCheck F) :
  metrics (sender (Run h c)) =
    (if sampled h is Some _
     then (if f64_ne (lastNbCycle c) f64_0 then category_metrics else [])
          ++ (if (GetSingleValue h (counter c)).2 is None then ["system.cpu.interrupt"] else [])
     else []) /\
  (category_gauges (sender (Run h c))).*1 =
    (if sampled h is Some _
     then (if f64_ne (lastNbCycle c) f64_0 then category_metrics else [])
     else []).
Proof.
  destruct (sampled h) as [t|] eqn:Hsampled.
  - apply sampled_Some in Hsampled as [Hsender [rest Htimes]].
    destruct (Run_sampled h c t rest Hsender Htimes) as (_ & _ & -> & _).
    destruct (f64_ne (lastNbCycle c) f64_0);
      rewrite ?metrics_rates, ?category_gauges_rates, ?category_gauges_closing;
      destruct (GetSingleValue h (counter c)) as [val [err|]]; split; reflexivity.
  - destruct (sampled_None h c Hsampled) as (_ & -> & _). split; reflexivity.
Qed.

End Metrics.
